(** * moldr: manifolds and projected gradient descent

    A shallow embedding of [manifold_factory.py] and [steepest_descent.py].

    - Python calls either return a value or raise: they live in [result].
    - numpy's two-dimensional arrays are a shape together with an entry
      function; numpy's shape checks ([np.dot], broadcasting) are written
      out and raise [ValueError] as numpy does.
    - Floating-point numbers are read as elements of a real field [F]
      (exact arithmetic); [0.5] is the inverse of [2].
    - Objects are a class tag and an attribute list, so that a missing
      attribute raises [AttributeError]; module-level names are looked up
      in the module's table of globals, so that an unbound name raises
      [NameError].
    - numpy's QR factorisation, square root and random sampler are
      section variables. *)

From HB Require Import structures.
From mathcomp Require Import boot order algebra.
From Stdlib Require Import String.
Import GRing.Theory Num.Theory Order.Theory.

Set Implicit Arguments.
Unset Strict Implicit.
Unset Printing Implicit Defensive.

Local Open Scope ring_scope.
Local Open Scope string_scope.

(** ** Exceptions and results *)

Inductive exn : Type :=
| NotImplementedError
| NameError (name : string)
| AttributeError (attr : string)
| TypeError
| ValueError.

Inductive result (A : Type) : Type :=
| Ok (a : A)
| Raise (e : exn).

Arguments Ok {A} a.
Arguments Raise {A} e.

Definition bind {A B : Type} (c : result A) (k : A -> result B) : result B :=
  match c with
  | Ok a => k a
  | Raise e => Raise e
  end.

Notation "x <- c ;; k" := (bind c (fun x => k))
  (at level 100, c at next level, right associativity).

(** Association lists keyed by Python identifiers. *)
Fixpoint assoc {V : Type} (k : string) (kvs : seq (string * V)) : option V :=
  match kvs with
  | [::] => None
  | (k', v) :: rest => if String.eqb k k' then Some v else assoc k rest
  end.

Inductive class : Type := Manifold | StiefelManifold | GrassmannManifold.

Section Arrays.

Variable F : realFieldType.

(** ** numpy arrays *)

(** A two-dimensional [ndarray]: [X.shape] is [(nrows, ncols)] and
    [X[i, j]] is [item X i j]; entries outside the shape are never read. *)
Record ndarray : Type :=
  NdArray { nrows : nat; ncols : nat; item : nat -> nat -> F }.

(** A one-dimensional [ndarray] (what [np.diag] returns on a matrix). *)
Record ndarray1 : Type := NdArray1 { len : nat; item1 : nat -> F }.

Definition shape (A : ndarray) : nat * nat := (nrows A, ncols A).

(** Array literal, row by row. *)
Definition np_array (rows : seq (seq F)) : ndarray :=
  NdArray (size rows) (size (head [::] rows))
          (fun i j => nth 0 (nth [::] rows i) j).

(** [X.T] *)
Definition transpose (A : ndarray) : ndarray :=
  NdArray (ncols A) (nrows A) (fun i j => item A j i).

(** [np.eye(k)] for a natural number [k]. *)
Definition eye (k : nat) : ndarray :=
  NdArray k k (fun i j => (i == j)%:R).

(** The matrix product of [np.dot] on two-dimensional arguments. *)
Definition matmul (A B : ndarray) : ndarray :=
  NdArray (nrows A) (ncols B)
          (fun i j => \sum_(k < ncols A) item A i k * item B k j).

(** [np.dot(A, B)]: the inner dimensions must agree. *)
Definition np_dot (A B : ndarray) : result ndarray :=
  if ncols A == nrows B then Ok (matmul A B) else Raise ValueError.

(** Broadcasting of one axis: lengths agree, or one of them is 1. *)
Definition broadcastable (a b : nat) : bool :=
  (a == b) || (a == 1%N) || (b == 1%N).

Definition bdim (a b : nat) : nat := if a == 1%N then b else a.

Definition bidx (d i : nat) : nat := if d == 1%N then 0%N else i.

Definition broadcast (op : F -> F -> F) (A B : ndarray) : ndarray :=
  NdArray (bdim (nrows A) (nrows B)) (bdim (ncols A) (ncols B))
          (fun i j => op (item A (bidx (nrows A) i) (bidx (ncols A) j))
                         (item B (bidx (nrows B) i) (bidx (ncols B) j))).

(** An elementwise binary operator between two arrays ([A + B], [A - B],
    [A * B]). *)
Definition elementwise (op : F -> F -> F) (A B : ndarray) : result ndarray :=
  if broadcastable (nrows A) (nrows B) && broadcastable (ncols A) (ncols B)
  then Ok (broadcast op A B)
  else Raise ValueError.

Definition add : ndarray -> ndarray -> result ndarray := elementwise +%R.
Definition sub : ndarray -> ndarray -> result ndarray :=
  elementwise (fun x y => x - y).
Definition mul : ndarray -> ndarray -> result ndarray := elementwise *%R.

(** [c * A] for a Python float [c]. *)
Definition scale (c : F) (A : ndarray) : ndarray :=
  NdArray (nrows A) (ncols A) (fun i j => c * item A i j).

(** [np.diag(A)] on a matrix: its diagonal, as a one-dimensional array. *)
Definition np_diag (A : ndarray) : ndarray1 :=
  NdArray1 (minn (nrows A) (ncols A)) (fun i => item A i i).

(** [np.diag(v)] on a one-dimensional array: the diagonal matrix. *)
Definition np_diag1 (v : ndarray1) : ndarray :=
  NdArray (len v) (len v) (fun i j => if i == j then item1 v i else 0).

(** [v + c] for a one-dimensional array and a float. *)
Definition add_scalar1 (v : ndarray1) (c : F) : ndarray1 :=
  NdArray1 (len v) (fun i => item1 v i + c).

(** [np.allclose(A, B)] with numpy's defaults [rtol=1e-05], [atol=1e-08]:
    every entry satisfies [|a - b| <= atol + rtol * |b|]. *)
Definition rtol : F := (10%:R ^+ 5)^-1.
Definition atol : F := (10%:R ^+ 8)^-1.

Definition isclose (a b : F) : bool := `|a - b| <= atol + rtol * `|b|.

Definition np_allclose (A B : ndarray) : result bool :=
  if broadcastable (nrows A) (nrows B) && broadcastable (ncols A) (ncols B)
  then
    Ok (all (fun i =>
               all (fun j =>
                      isclose (item A (bidx (nrows A) i) (bidx (ncols A) j))
                              (item B (bidx (nrows B) i) (bidx (ncols B) j)))
                   (iota 0 (bdim (ncols A) (ncols B))))
            (iota 0 (bdim (nrows A) (nrows B))))
  else Raise ValueError.

(** The entries of an array inside an [m] by [n] window, as a matrix. *)
Definition as_mx (m n : nat) (A : ndarray) : 'M[F]_(m, n) :=
  \matrix_(i < m, j < n) item A i j.

(** Two arrays are the same array: same shape, same entries. *)
Definition same_array (A B : ndarray) : Prop :=
  shape A = shape B /\
  forall i j, (i < nrows A)%N -> (j < ncols A)%N -> item A i j = item B i j.

(** [X] has orthonormal columns: its Gram matrix is the identity. *)
Definition orthonormal_columns (X : ndarray) : Prop :=
  let Xm := as_mx (nrows X) (ncols X) X in Xm^T *m Xm = 1%:M.

(** The tangent-space projection at [X] of [U], on matrices. *)
Definition tangent_mx (n p : nat) (X U : 'M[F]_(n, p)) : 'M[F]_(n, p) :=
  X *m (2%:R^-1 *: (X^T *m U - U^T *m X)) + (1%:M - X *m X^T) *m U.

End Arrays.

Arguments NdArray {F} nrows ncols item.
Arguments NdArray1 {F} len item1.

Section Manifolds.

Variable F : realFieldType.

(** numpy's square root on a float. *)
Variable np_sqrt : F -> F.

(** [np.linalg.qr] in its default (reduced) mode: the pair [(Q, R)]. *)
Variable np_linalg_qr : ndarray F -> result (ndarray F * ndarray F).

(** ** Python values and objects *)

Inductive value : Type :=
| VNone
| VBool (b : bool)
| VInt (z : int)
| VFloat (x : F)
| VStr (s : string)
| VModule (name : string)
| VFunction (name : string)
| VClass (c : class).

(** [npr.randn(d)]: sampling a standard normal array of the given size. *)
Variable npr_randn : value -> result (ndarray F).

(** An instance: its class and its instance dictionary (latest binding
    first). *)
Record object : Type := Object { class_of : class; attrs : seq (string * value) }.

Definition new (c : class) : object := Object c [::].

(** [self.a = v] *)
Definition setattr (self : object) (a : string) (v : value) : object :=
  Object (class_of self) ((a, v) :: attrs self).

(** [self.a] for a data attribute. *)
Definition getattr (self : object) (a : string) : result value :=
  if assoc a (attrs self) is Some v then Ok v else Raise (AttributeError a).

(** The names bound at module level in manifold_factory.py: its imports
    and its three classes.  No Python builtin is called [p]. *)
Definition manifold_factory_globals : seq (string * value) :=
  [:: ("__author__", VStr "Josh Fass");
      ("np", VModule "numpy");
      ("npr", VModule "numpy.random");
      ("sign", VFunction "utils.sign");
      ("Manifold", VClass Manifold);
      ("StiefelManifold", VClass StiefelManifold);
      ("GrassmannManifold", VClass GrassmannManifold)].

(** Reading a name that is not a local variable of the running function. *)
Definition load_global (globals : seq (string * value)) (x : string)
  : result value :=
  if assoc x globals is Some v then Ok v else Raise (NameError x).

(** The top-level names of numpy this repository asks for and numpy has.
    [norm] is not one of them: numpy exports it from [numpy.linalg] only. *)
Definition numpy_exports : seq (string * value) :=
  [:: ("dot", VFunction "numpy.dot");
      ("eye", VFunction "numpy.eye");
      ("sqrt", VFunction "numpy.sqrt");
      ("diag", VFunction "numpy.diag");
      ("allclose", VFunction "numpy.allclose");
      ("linalg", VModule "numpy.linalg")].

(** [np.a] *)
Definition np_getattr (a : string) : result value :=
  if assoc a numpy_exports is Some v then Ok v else Raise (AttributeError a).

(** What a numpy function returns: an array of one or of two dimensions. *)
Inductive array : Type :=
| Array1 (v : ndarray1 F)
| Array2 (A : ndarray F).

(** Calling the value bound to a numpy name on one matrix.  [np.dot] and
    [np.allclose] want two arguments, [np.eye] wants an integer and a
    module is not callable. *)
Definition np_call1 (f : value) (A : ndarray F) : result array :=
  match f with
  | VFunction "numpy.diag" => Ok (Array1 (np_diag A))
  | VFunction "numpy.sqrt" =>
      Ok (Array2 (NdArray (nrows A) (ncols A)
                          (fun i j => np_sqrt (item A i j))))
  | _ => Raise TypeError
  end.

(** Python's [==] between an entry of [X.shape] and an attribute value. *)
Definition eq_nat_value (k : nat) (v : value) : bool :=
  match v with
  | VInt z => Posz k == z
  | VFloat x => k%:R == x
  | VBool b => k == b :> nat
  | _ => false
  end.

(** [np.eye(v)] *)
Definition np_eye (v : value) : result (ndarray F) :=
  match v with
  | VInt (Posz k) => Ok (eye F k)
  | VInt (Negz _) => Raise ValueError
  | VBool b => Ok (eye F b)
  | _ => Raise TypeError
  end.

(** Modelled from the spec: [sign] is imported from [utils], which is not
    among the sources.  The spec describes it as the sign function, which
    "returns -1/0/+1 per input sign"; on an array it acts entry by entry. *)
Definition sign (x : F) : F :=
  if x < 0 then -1 else if x == 0 then 0 else 1.

Definition sign1 (v : ndarray1 F) : ndarray1 F :=
  NdArray1 (len v) (fun i => sign (item1 v i)).

(** ** class Manifold *)

(** [Manifold.__init__] *)
Definition Manifold_init (self : object) : object :=
  setattr self "dim" VNone.

(** [Manifold.proj] *)
Definition Manifold_proj (self : object) (X : ndarray F)
  : result (ndarray F) :=
  Raise NotImplementedError.

(** [Manifold.point_on_manifold] *)
Definition Manifold_point_on_manifold (self : object) (X : ndarray F)
  : result bool :=
  Raise NotImplementedError.

(** ** class StiefelManifold(Manifold) *)

(** [StiefelManifold.__init__] *)
Definition StiefelManifold_init (self : object) (n p : int) : object :=
  let self := setattr self "n" (VInt n) in
  let self := setattr self "p" (VInt p) in
  let self :=
    setattr self "dim"
            (VFloat ((n * p)%:~R - 2%:R^-1 * (p * (p + 1))%:~R)) in
  setattr self "typical_distance" (VFloat (np_sqrt p%:~R)).

(** [StiefelManifold.inner] *)
Definition StiefelManifold_inner (self : object) (d1 d2 : ndarray F)
  : result (ndarray F) :=
  np_dot d1 d2.

(** [StiefelManifold.norm] *)
Definition StiefelManifold_norm (self : object) (d : ndarray F)
  : result array :=
  np_norm <- np_getattr "norm";;
  np_call1 np_norm d.

(** [StiefelManifold.proj] *)
Definition StiefelManifold_proj (self : object) (X U : ndarray F)
  : result (ndarray F) :=
  XTU <- np_dot (transpose X) U;;
  UTX <- np_dot (transpose U) X;;
  diff <- sub XTU UTX;;
  let skew_XTU := scale 2%:R^-1 diff in
  XXT <- np_dot X (transpose X);;
  let I := eye F (nrows XXT) in
  XS <- np_dot X skew_XTU;;
  I_XXT <- sub I XXT;;
  PU <- np_dot I_XXT U;;
  add XS PU.

(** [StiefelManifold.tangent] *)
Definition StiefelManifold_tangent (self : object) (X U : ndarray F)
  : result (ndarray F) :=
  StiefelManifold_proj self X U.

(** [StiefelManifold.egrad2rgrad] *)
Definition StiefelManifold_egrad2rgrad (self : object) (X U : ndarray F)
  : result (ndarray F) :=
  StiefelManifold_proj self X U.

(** The one-dimensional array [sign(sign(np.diag(R)) + 0.5)]. *)
Definition sign_correction (R : ndarray F) : ndarray1 F :=
  sign1 (add_scalar1 (sign1 (np_diag R)) 2%:R^-1).

(** [StiefelManifold.retraction]; the source's default for [t] is [1.0].
    On arrays [*] is the elementwise product. *)
Definition StiefelManifold_retraction (self : object) (X U : ndarray F) (t : F)
  : result (ndarray F) :=
  Y <- add X (scale t U);;
  QR <- np_linalg_qr Y;;
  let: (Q, R) := QR in
  mul Q (np_diag1 (sign_correction R)).

(** [StiefelManifold.point_on_manifold]; in [np.eye(p)] the name [p] is
    neither a parameter nor a local variable of the method. *)
Definition StiefelManifold_point_on_manifold (self : object) (X : ndarray F)
  : result bool :=
  n <- getattr self "n";;
  self_p <- getattr self "p";;
  if eq_nat_value (nrows X) n && eq_nat_value (ncols X) self_p then
    XTX <- np_dot (transpose X) X;;
    p <- load_global manifold_factory_globals "p";;
    I <- np_eye p;;
    close <- np_allclose XTX I;;
    if close then Ok true else Ok false
  else Ok false.

(** ** class GrassmannManifold(Manifold) *)

(** [GrassmannManifold.__init__]; it does not call [Manifold.__init__]. *)
Definition GrassmannManifold_init (self : object) : object :=
  setattr self "implemented_" (VBool false).

(** ** Method lookup *)

(** Method resolution order. *)
Definition mro (c : class) : seq class :=
  match c with
  | Manifold => [:: Manifold]
  | StiefelManifold => [:: StiefelManifold; Manifold]
  | GrassmannManifold => [:: GrassmannManifold; Manifold]
  end.

(** The methods each class body defines. *)
Definition methods (c : class) : seq string :=
  match c with
  | Manifold => [:: "__init__"; "proj"; "random_vec"; "point_on_manifold"]
  | StiefelManifold =>
      [:: "__init__"; "__str__"; "inner"; "norm"; "proj"; "tangent";
          "egrad2rgrad"; "retraction"; "point_on_manifold"]
  | GrassmannManifold => [:: "__init__"]
  end.

(** The class whose definition of [m] an instance of [c] runs. *)
Definition lookup_method (c : class) (m : string) : option class :=
  ohead [seq c' <- mro c | has (String.eqb m) (methods c')].

(** [self.proj] called on the argument list [args] *)
Definition call_proj (self : object) (args : seq (ndarray F))
  : result (ndarray F) :=
  match lookup_method (class_of self) "proj", args with
  | Some Manifold, [:: X] => Manifold_proj self X
  | Some StiefelManifold, [:: X; U] => StiefelManifold_proj self X U
  | Some _, _ => Raise TypeError
  | None, _ => Raise (AttributeError "proj")
  end.

(** [self.point_on_manifold(X)] *)
Definition call_point_on_manifold (self : object) (X : ndarray F)
  : result bool :=
  match lookup_method (class_of self) "point_on_manifold" with
  | Some Manifold => Manifold_point_on_manifold self X
  | Some StiefelManifold => StiefelManifold_point_on_manifold self X
  | _ => Raise (AttributeError "point_on_manifold")
  end.

(** [Manifold.random_vec] *)
Definition Manifold_random_vec (self : object) : result (ndarray F) :=
  dim <- getattr self "dim";;
  x <- npr_randn dim;;
  call_proj self [:: x].

(** [self.random_vec()] *)
Definition call_random_vec (self : object) : result (ndarray F) :=
  match lookup_method (class_of self) "random_vec" with
  | Some Manifold => Manifold_random_vec self
  | _ => Raise (AttributeError "random_vec")
  end.

(** [Manifold()], [StiefelManifold(n, p)] and [GrassmannManifold()] *)
Definition Manifold_new : object := Manifold_init (new Manifold).
Definition StiefelManifold_new (n p : int) : object :=
  StiefelManifold_init (new StiefelManifold) n p.
Definition GrassmannManifold_new : object :=
  GrassmannManifold_init (new GrassmannManifold).

End Manifolds.

Arguments VNone {F}.
Arguments VBool {F} b.
Arguments VInt {F} z.
Arguments VStr {F} s.
Arguments VModule {F} name.
Arguments VFunction {F} name.
Arguments VClass {F} c.

(** ** steepest_descent.py *)

Section Optimizer.

Variable F : realFieldType.

(** The names bound at module level in steepest_descent.py.  The file has
    no import statement, and no Python builtin is called [grad], [np],
    [new_M] or [thresh]. *)
Definition steepest_descent_globals : seq (string * value F) :=
  [:: ("__author__", VStr "Josh Fass");
      ("proj_grad_descent", VFunction "proj_grad_descent")].

(** The local variables of [proj_grad_descent] that are assigned in its
    body. *)
Record locals : Type := Locals {
  M : ndarray F;
  old_M : option (ndarray F);
  free_grad : option (ndarray F);
  converged : bool;
  timed_out : bool;
  n_iter : int
}.

(** Calling the value bound to a module-level name on the objective: what
    it returns is the gradient function. *)
Variable call_on_objective :
  value F -> (ndarray F -> result F) -> result (ndarray F -> result (ndarray F)).

(** Line 42, [if n_iter >= max_iter:], is followed by no indented suite:
    as it stands the file is rejected by the Python compiler.  The suite is
    a parameter here, so that what is proved holds however it is filled. *)
Variable line_42_suite : locals -> result locals.

(** The test of line 43, [np.mean((new_M - old_M)**2) < thresh], on the
    values bound to [np], [new_M] and [thresh]. *)
Variable line_43_test : value F -> value F -> ndarray F -> value F -> result bool.

Section Loop.

Variable obj_grad : ndarray F -> result (ndarray F).
Variable max_iter : int.

(** Lines 27 to 44: one pass through the body of the [while]. *)
Definition loop_body (st : locals) : result locals :=
  let old := M st in
  g <- obj_grad (M st);;
  let st := Locals (M st) (Some old) (Some g) (converged st) (timed_out st)
                   (n_iter st + 1) in
  st <- (if max_iter <= n_iter st then line_42_suite st else Ok st);;
  np <- load_global steepest_descent_globals "np";;
  new_M <- load_global steepest_descent_globals "new_M";;
  thresh <- load_global steepest_descent_globals "thresh";;
  small <- line_43_test np new_M old thresh;;
  if small
  then Ok (Locals (M st) (old_M st) (free_grad st) true (timed_out st)
                  (n_iter st))
  else Ok st.

(** Line 26: [while (not converged) and (not timed_out)], run for at most
    [fuel] passes; [None] when the loop is still running after them. *)
Fixpoint while_loop (fuel : nat) (st : locals) : result (option locals) :=
  if ~~ converged st && ~~ timed_out st then
    if fuel is fuel'.+1 then
      st' <- loop_body st;;
      while_loop fuel' st'
    else Ok None
  else Ok (Some st).

End Loop.

(** [proj_grad_descent]; the defaults are [convergence_threshold=0.1] and
    [max_iter=100].  Line 47, [# return M], is a comment: when the loop
    ends the function returns [None]. *)
Definition proj_grad_descent (fuel : nat) (init_point : ndarray F)
    (manifold : object F) (obj_func : ndarray F -> result F)
    (convergence_threshold : F) (max_iter : int)
  : result (option (value F)) :=
  grad <- load_global steepest_descent_globals "grad";;
  obj_grad <- call_on_objective grad obj_func;;
  let st := Locals init_point None None false false 0 in
  final <- while_loop obj_grad max_iter fuel st;;
  if final is Some _ then Ok (Some VNone) else Ok None.

End Optimizer.

(** ** The scenarios of the specification, and concrete collaborators *)

(** [[[1,0],[0,1],[0,0],[0,0]]], the identity-padded 4 by 2 matrix. *)
Definition identity_padded_4x2 (F : realFieldType) : ndarray F :=
  np_array [:: [:: 1; 0]; [:: 0; 1]; [:: 0; 0]; [:: 0; 0]].

(** [[[1,2],[3,4],[5,6],[7,8]]], an ambient direction of the same shape. *)
Definition direction_4x2 (F : realFieldType) : ndarray F :=
  np_array [:: [:: 1; 2%:R]; [:: 3%:R; 4%:R]; [:: 5%:R; 6%:R];
               [:: 7%:R; 8%:R]].

(** A square root on the rationals: six steps of Heron's iteration. *)
Definition heron_sqrt (x : rat) : rat :=
  iter 6 (fun y => (y + x / y) / 2%:R) 1.

(** A reduced QR factorisation of the identity-padded matrix: it has
    orthonormal columns, so [Q] is the matrix itself and [R] the identity. *)
Definition qr_identity_padded (A : ndarray rat)
  : result (ndarray rat * ndarray rat) :=
  Ok (identity_padded_4x2 rat, eye rat 2).

(** A sampler whose draws are all zero; numpy wants a non-negative integer
    size. *)
Definition randn_zero (d : value rat) : result (ndarray rat) :=
  match d with
  | VInt (Posz k) => Ok (NdArray 1 k (fun _ _ => 0))
  | VInt (Negz _) => Raise ValueError
  | _ => Raise TypeError
  end.

(** [StiefelManifold(4, 2)] over the rationals. *)
Definition stiefel_4_2 : object rat := StiefelManifold_new heron_sqrt 4 2.

(** [[[0,1],[-1,0],[5,6],[7,8]]]: a direction whose first two rows are
    skew-symmetric, hence tangent at the identity-padded point. *)
Definition tangent_direction_4x2 (F : realFieldType) : ndarray F :=
  np_array [:: [:: 0; 1]; [:: -1; 0]; [:: 5%:R; 6%:R]; [:: 7%:R; 8%:R]].

(** [[[0,1],[1,0]]], an orthogonal 2 by 2 matrix with a zero diagonal. *)
Definition swap_2x2 (F : realFieldType) : ndarray F :=
  np_array [:: [:: 0; 1]; [:: 1; 0]].

(** [[[1],[0],[0]]] and [[[0],[1],[0]]], two points of the unit sphere. *)
Definition north_pole_3x1 (F : realFieldType) : ndarray F :=
  np_array [:: [:: 1]; [:: 0]; [:: 0]].

Definition east_3x1 (F : realFieldType) : ndarray F :=
  np_array [:: [:: 0]; [:: 1]; [:: 0]].

(** A reduced QR factorisation of an orthogonal matrix: [Q] is the matrix
    and [R] the identity. *)
Definition qr_swap (A : ndarray rat) : result (ndarray rat * ndarray rat) :=
  Ok (swap_2x2 rat, eye rat 2).

(** A reduced QR factorisation of a 3 by 1 matrix whose only non-zero entry
    is a positive first one: [Q] is the north pole and [R] that entry. *)
Definition qr_first_axis (A : ndarray rat)
  : result (ndarray rat * ndarray rat) :=
  Ok (north_pole_3x1 rat, NdArray 1 1 (fun _ _ => item A 0 0)).

(** [StiefelManifold(2, 2)] and [StiefelManifold(3, 1)] over the rationals. *)
Definition stiefel_2_2 : object rat := StiefelManifold_new heron_sqrt 2 2.
Definition stiefel_3_1 : object rat := StiefelManifold_new heron_sqrt 3 1.

(** * Properties *)

Section ArrayFacts.

Variable F : realFieldType.
Implicit Types A B : ndarray F.

Lemma bidx_ord (d : nat) (i : 'I_d) : bidx d i = i.
Proof.
rewrite /bidx; case: eqP => // d1.
by case: i => i /=; rewrite d1 ltnS leqn0 => /eqP.
Qed.

Lemma broadcastable_refl (d : nat) : broadcastable d d.
Proof. by rewrite /broadcastable eqxx. Qed.

Lemma bdim_refl (d : nat) : bdim d d = d.
Proof. by rewrite /bdim; case: ifP. Qed.

Lemma as_mx_matmul m n A B :
  as_mx m n (matmul A B) = as_mx m (ncols A) A *m as_mx (ncols A) n B.
Proof.
apply/matrixP => i j; rewrite !mxE /=.
by apply: eq_bigr => k _; rewrite !mxE.
Qed.

Lemma as_mx_transpose m n A : as_mx m n (transpose A) = (as_mx n m A)^T.
Proof. by apply/matrixP => i j; rewrite !mxE. Qed.

Lemma as_mx_scale m n c A : as_mx m n (scale c A) = c *: as_mx m n A.
Proof. by apply/matrixP => i j; rewrite !mxE. Qed.

Lemma as_mx_eye n : as_mx n n (eye F n) = 1%:M.
Proof. by apply/matrixP => i j; rewrite !mxE. Qed.

Lemma as_mx_broadcast m n op A B :
  shape A = (m, n) -> shape B = (m, n) ->
  as_mx m n (broadcast op A B) =
  \matrix_(i, j) op (as_mx m n A i j) (as_mx m n B i j).
Proof.
case=> rA cA [rB cB]; apply/matrixP => i j; rewrite !mxE /= rA cA rB cB.
by rewrite !bidx_ord.
Qed.

Lemma as_mx_add m n A B :
  shape A = (m, n) -> shape B = (m, n) ->
  as_mx m n (broadcast +%R A B) = as_mx m n A + as_mx m n B.
Proof.
by move=> sA sB; rewrite as_mx_broadcast //; apply/matrixP => i j; rewrite !mxE.
Qed.

Lemma as_mx_sub m n A B :
  shape A = (m, n) -> shape B = (m, n) ->
  as_mx m n (broadcast (fun x y => x - y) A B) = as_mx m n A - as_mx m n B.
Proof.
by move=> sA sB; rewrite as_mx_broadcast //; apply/matrixP => i j; rewrite !mxE.
Qed.

Lemma elementwise_same_shape op A B :
  shape B = shape A ->
  elementwise op A B = Ok (broadcast op A B) /\
  shape (broadcast op A B) = shape A.
Proof.
case=> rB cB; rewrite /elementwise /shape /= rB cB !broadcastable_refl.
by rewrite !bdim_refl.
Qed.

Lemma same_array_as_mx A B :
  same_array A B <->
  shape A = shape B /\
  as_mx (nrows A) (ncols A) A = as_mx (nrows A) (ncols A) B.
Proof.
split=> -[sAB eAB]; split=> //.
  by apply/matrixP => i j; rewrite !mxE; apply: eAB.
move=> i j lti ltj.
by move/matrixP/(_ (Ordinal lti) (Ordinal ltj)): eAB; rewrite !mxE.
Qed.

End ArrayFacts.

Section ProjFacts.

Variable F : realFieldType.
Implicit Types X U T : ndarray F.

Section Algebra.

Variables (n p : nat) (X U : 'M[F]_(n, p)).
Hypothesis orthonormal : X^T *m X = 1%:M.

Let S : 'M[F]_p := 2%:R^-1 *: (X^T *m U - U^T *m X).

Lemma skew_part_tr : S^T = - S.
Proof.
by rewrite /S linearZ /= linearB /= !trmx_mul !trmxK -scalerN opprB.
Qed.

Lemma tangent_mx_gram : X^T *m tangent_mx X U = S.
Proof.
rewrite /tangent_mx mulmxDr !mulmxA orthonormal mul1mx.
by rewrite mulmxBr mulmx1 mulmxA orthonormal mul1mx subrr mul0mx addr0.
Qed.

Lemma tangent_mx_skew :
  X^T *m tangent_mx X U + (tangent_mx X U)^T *m X = 0.
Proof.
rewrite -[X in _ + _ *m X]trmxK -trmx_mul tangent_mx_gram skew_part_tr.
exact: subrr.
Qed.

Lemma tangent_mx_idem : tangent_mx X (tangent_mx X U) = tangent_mx X U.
Proof.
have TX : (tangent_mx X U)^T *m X = - S.
  by rewrite -[X in _ *m X]trmxK -trmx_mul tangent_mx_gram skew_part_tr.
rewrite {1}/tangent_mx tangent_mx_gram TX opprK.
have -> : 2%:R^-1 *: (S + S) = S.
  by rewrite -mulr2n -scaler_nat scalerA mulVf ?scale1r // pnatr_eq0.
by rewrite mulmxBl mul1mx -mulmxA tangent_mx_gram addrC subrK.
Qed.

End Algebra.

(** On two arrays of one shape [proj] returns, and what it returns is the
    matrix formula. *)
Lemma proj_ok (self : object F) X U :
  shape U = shape X ->
  exists2 T, StiefelManifold_proj self X U = Ok T &
    shape T = shape X /\
    as_mx (nrows X) (ncols X) T =
    tangent_mx (as_mx (nrows X) (ncols X) X) (as_mx (nrows X) (ncols X) U).
Proof.
case: X => n p x; case: U => n' p' u [/= -> ->].
rewrite /StiefelManifold_proj /np_dot /sub /add /elementwise /=.
do !rewrite ?broadcastable_refl ?bdim_refl ?eqxx /=.
eexists; first by [].
rewrite /shape /= !bdim_refl; split=> //.
rewrite as_mx_add /shape /= ?bdim_refl // !as_mx_matmul /= ?bdim_refl.
rewrite as_mx_scale !as_mx_sub /shape /= ?bdim_refl // !as_mx_matmul /=.
by rewrite !as_mx_transpose as_mx_eye.
Qed.

(** C2: at a point [X] with orthonormal columns, and for every [U] of the
    shape of [X], [proj(X, U)] returns an array [T] for which
    [X^T T + T^T X] is the zero matrix: [X^T T] is skew-symmetric. *)
Theorem proj_tangent_skew (self : object F) X U :
  shape U = shape X -> orthonormal_columns X ->
  exists2 T, StiefelManifold_proj self X U = Ok T &
    let Xm := as_mx (nrows X) (ncols X) X in
    let Tm := as_mx (nrows X) (ncols X) T in
    Xm^T *m Tm + Tm^T *m Xm = 0.
Proof.
move=> sU oX; have [T projT [_ eT]] := proj_ok self sU.
by exists T => //=; rewrite eT tangent_mx_skew.
Qed.

(** C10: at a point [X] with orthonormal columns, projecting a projected
    direction once more returns the same array:
    [proj(X, proj(X, U)) = proj(X, U)]. *)
Theorem proj_idempotent (self : object F) X U :
  shape U = shape X -> orthonormal_columns X ->
  exists2 T, StiefelManifold_proj self X U = Ok T &
    exists2 T', StiefelManifold_proj self X T = Ok T' & same_array T' T.
Proof.
move=> sU oX; have [T projT [sT eT]] := proj_ok self sU.
exists T => //; have [T' projT' [sT' eT']] := proj_ok self sT.
exists T' => //; apply/same_array_as_mx; split; first by rewrite sT'.
case: sT' => -> ->.
by rewrite eT' eT tangent_mx_idem.
Qed.

End ProjFacts.

Section ManifoldFacts.

Variable F : realFieldType.
Variable np_sqrt : F -> F.
Variable np_linalg_qr : ndarray F -> result (ndarray F * ndarray F).
Variable npr_randn : value F -> result (ndarray F).
Implicit Types X U d R : ndarray F.

Lemma identity_padded_orthonormal : orthonormal_columns (identity_padded_4x2 F).
Proof.
apply/matrixP => i j; rewrite !mxE !big_ord_recl big_ord0 !mxE /=.
case: i => [[|[|i]]] // ?; case: j => [[|[|j]]] // ?;
  by rewrite /= ?mulr0 ?mul0r ?mulr1 ?addr0 ?add0r.
Qed.

Lemma sign_of_shifted_sign (x : F) :
  sign (sign x + 2%:R^-1) = if x == 0 then 1 else sign x.
Proof.
have h0 : (0 : F) < 2%:R^-1 by rewrite invr_gt0 ltr0n.
have h1 : (2%:R^-1 : F) < 1 by rewrite invf_lt1 ?ltr0n // ltr1n.
rewrite /sign; case: (ltrgt0P x) => [xpos|xneg|x0].
- by rewrite ltNge addr_ge0 ?ler01 1?ltW //= gt_eqF // addr_gt0.
- by rewrite addrC subr_lt0 h1.
- by rewrite add0r ltNge ltW //= gt_eqF.
Qed.

(** What [point_on_manifold] does on an instance built by the constructor:
    on an array of the right shape the unbound name [p] is read. *)
Lemma point_on_manifold_spec (n p : int) X :
  StiefelManifold_point_on_manifold (StiefelManifold_new np_sqrt n p) X =
  if (Posz (nrows X) == n) && (Posz (ncols X) == p)
  then Raise (NameError "p") else Ok false.
Proof.
rewrite /StiefelManifold_point_on_manifold /=.
case: ifP => // _.
by rewrite /np_dot /= eqxx.
Qed.

(** C1, as the code has it: whatever [np.linalg.qr] returns, the membership
    test applied to the result of [retraction] never returns [True]. *)
Theorem retraction_never_passes_membership (n p : int) X U (t : F) :
  let self := StiefelManifold_new np_sqrt n p in
  (Y <- StiefelManifold_retraction np_linalg_qr self X U t;;
   call_point_on_manifold self Y) <> Ok true.
Proof.
move=> self; case: (StiefelManifold_retraction _ _ _ _ _) => [Y|e] //=.
by rewrite /call_point_on_manifold /= point_on_manifold_spec; case: ifP.
Qed.

(** C3, as the code has it: at a point with more rows than columns and at
    least two columns, once [np.linalg.qr] has returned factors of the
    reduced shapes, the elementwise product of [Q] (n by p) with the
    diagonal matrix (p by p) cannot be broadcast and [retraction] raises
    [ValueError], for every step size, [t = 0.0] included. *)
Theorem retraction_raises_on_tall_points (self : object F) X U (t : F) Q R :
  shape U = shape X -> (1 < ncols X < nrows X)%N ->
  np_linalg_qr (broadcast +%R X (scale t U)) = Ok (Q, R) ->
  shape Q = shape X -> shape R = (ncols X, ncols X) ->
  StiefelManifold_retraction np_linalg_qr self X U t = Raise ValueError.
Proof.
move=> sU /andP[p1 pn] qrY [rQ cQ] [rR cR].
rewrite /StiefelManifold_retraction /add.
have [-> _] := @elementwise_same_shape _ +%R X (scale t U) sU.
rewrite /= qrY /mul /elementwise /= rQ cQ rR cR minnn.
rewrite /broadcastable.
by rewrite (gtn_eqF pn) (gtn_eqF (ltn_trans p1 pn)) (gtn_eqF p1).
Qed.

(** C5, as the code has it: on the identity-padded 4 by 2 matrix the
    membership test of [StiefelManifold(4, 2)] raises [NameError] for the
    name [p]; and on no instance and no array does it return [True]. *)
Theorem point_on_manifold_identity_padded :
  call_point_on_manifold (StiefelManifold_new np_sqrt 4 2)
                         (identity_padded_4x2 F) = Raise (NameError "p") /\
  forall (n p : int) X,
    call_point_on_manifold (StiefelManifold_new np_sqrt n p) X <> Ok true.
Proof.
split=> [|n p X]; rewrite /call_point_on_manifold /= point_on_manifold_spec //.
by case: ifP.
Qed.

(** C6: entry [i] of [sign(sign(np.diag(R)) + 0.5)] is [+1] when [R_ii] is
    zero and the sign of [R_ii] otherwise; the array has one entry per
    diagonal entry of [R]. *)
Theorem sign_correction_entry R (i : nat) :
  len (sign_correction R) = minn (nrows R) (ncols R) /\
  item1 (sign_correction R) i =
    if item R i i == 0 then 1 else sign (item R i i).
Proof. by split=> //=; rewrite sign_of_shifted_sign. Qed.

(** C7, as the code has it: [norm] raises [AttributeError] on every
    argument, numpy having no attribute [norm]; and [inner] on the 4 by 2
    scenario raises [ValueError], [np.dot] being the matrix product. *)
Theorem norm_raises_AttributeError (self : object F) d :
  StiefelManifold_norm np_sqrt self d = Raise (AttributeError "norm") /\
  StiefelManifold_inner self (identity_padded_4x2 F) (identity_padded_4x2 F) =
    Raise ValueError.
Proof. by []. Qed.

(** C8: for all integers [n] and [p] the constructor returns an instance
    with [dim = n*p - 0.5*p*(p+1)] and [typical_distance = sqrt(p)], and
    [StiefelManifold(5, 2).dim] is [7.0]. *)
Theorem StiefelManifold_init_attrs (n p : int) :
  let self := StiefelManifold_new np_sqrt n p in
  [/\ getattr self "dim" =
        Ok (VFloat (n%:~R * p%:~R - 2%:R^-1 * (p%:~R * (p%:~R + 1)))),
      getattr self "typical_distance" = Ok (VFloat (np_sqrt p%:~R)),
      getattr self "n" = Ok (VInt n) & getattr self "p" = Ok (VInt p)] /\
  getattr (StiefelManifold_new np_sqrt 5 2) "dim" = Ok (VFloat 7%:R).
Proof.
split; first by split; rewrite /getattr //= !intrM intrD.
rewrite /getattr /=; congr (Ok (VFloat _)).
have -> : (2 * (2 + 1) : int) = 2 * 3 by [].
by rewrite [(2 * 3)%:~R]intrM mulKf ?pnatr_eq0 // -rmorphB.
Qed.

(** C9, amended: [proj] and [point_on_manifold] raise
    [NotImplementedError] on the base class and on the Grassmann
    placeholder. *)
Theorem abstract_operations_raise X :
  [/\ call_proj (Manifold_new F) [:: X] = Raise NotImplementedError,
      call_point_on_manifold (Manifold_new F) X = Raise NotImplementedError,
      call_proj (GrassmannManifold_new F) [:: X] = Raise NotImplementedError &
      call_point_on_manifold (GrassmannManifold_new F) X =
        Raise NotImplementedError].
Proof. by []. Qed.

(** On the placeholder [random_vec] reads [self.dim], which its
    constructor never sets. *)
Lemma random_vec_placeholder :
  call_random_vec npr_randn (GrassmannManifold_new F) =
  Raise (AttributeError "dim").
Proof. by []. Qed.

End ManifoldFacts.

Section OptimizerFacts.

Variable F : realFieldType.
Variable call_on_objective :
  value F -> (ndarray F -> result F) -> result (ndarray F -> result (ndarray F)).
Variable line_42_suite : locals F -> result (locals F).
Variable line_43_test :
  value F -> value F -> ndarray F -> value F -> result bool.

(** C4, as the code has it: however the suite missing at line 42 is filled
    and whatever the budget, a call of [proj_grad_descent] raises
    [NameError] for [grad] before the loop is entered; it returns neither a
    point nor a status. *)
Theorem proj_grad_descent_raises (fuel : nat) (init_point : ndarray F)
    (manifold : object F) (obj_func : ndarray F -> result F)
    (convergence_threshold : F) (max_iter : int) :
  proj_grad_descent call_on_objective line_42_suite line_43_test fuel
    init_point manifold obj_func convergence_threshold max_iter =
  Raise (NameError "grad").
Proof. by []. Qed.

End OptimizerFacts.

(** * Concrete instances over the rationals *)

(** The hypotheses of C2 hold at the identity-padded point of
    [StiefelManifold(4, 2)], with [[[1,2],[3,4],[5,6],[7,8]]] as direction. *)
Lemma proj_tangent_skew_witness :
  shape (direction_4x2 rat) = shape (identity_padded_4x2 rat) /\
  orthonormal_columns (identity_padded_4x2 rat) /\
  exists2 T,
    StiefelManifold_proj stiefel_4_2 (identity_padded_4x2 rat)
                         (direction_4x2 rat) = Ok T &
    let Xm := as_mx 4 2 (identity_padded_4x2 rat) in
    let Tm := as_mx 4 2 T in
    Xm^T *m Tm + Tm^T *m Xm = 0.
Proof.
split; first by [].
split; first exact: identity_padded_orthonormal.
apply: (@proj_tangent_skew rat stiefel_4_2 (identity_padded_4x2 rat)
                           (direction_4x2 rat)); first by [].
exact: identity_padded_orthonormal.
Defined.

(** The hypotheses of C10 hold at the same point and direction. *)
Lemma proj_idempotent_witness :
  shape (direction_4x2 rat) = shape (identity_padded_4x2 rat) /\
  orthonormal_columns (identity_padded_4x2 rat) /\
  exists2 T,
    StiefelManifold_proj stiefel_4_2 (identity_padded_4x2 rat)
                         (direction_4x2 rat) = Ok T &
    exists2 T',
      StiefelManifold_proj stiefel_4_2 (identity_padded_4x2 rat) T = Ok T' &
      same_array T' T.
Proof.
split; first by [].
split; first exact: identity_padded_orthonormal.
apply: (@proj_idempotent rat stiefel_4_2 (identity_padded_4x2 rat)
                         (direction_4x2 rat)); first by [].
exact: identity_padded_orthonormal.
Defined.

(** The failing input of C3: the identity-padded point of
    [StiefelManifold(4, 2)], any direction, step size [0.0]. *)
Lemma retraction_raises_witness :
  StiefelManifold_retraction qr_identity_padded stiefel_4_2
    (identity_padded_4x2 rat) (direction_4x2 rat) 0 = Raise ValueError.
Proof.
apply: (@retraction_raises_on_tall_points rat qr_identity_padded stiefel_4_2
          (identity_padded_4x2 rat) (direction_4x2 rat) 0
          (identity_padded_4x2 rat) (eye rat 2)); by [].
Defined.

(** C9 as stated fails: on the Grassmann placeholder [random_vec] raises
    [AttributeError], which is not [NotImplementedError]. *)
Lemma random_vec_placeholder_not_NotImplemented :
  call_random_vec randn_zero (GrassmannManifold_new rat) =
    Raise (AttributeError "dim") /\
  call_random_vec randn_zero (GrassmannManifold_new rat) <>
    Raise NotImplementedError.
Proof. by []. Qed.

(** * Further properties of the code *)

Section MoreProj.
Variable F : realFieldType.
Implicit Types X U T : ndarray F.

Lemma bdim_1r (a : nat) : bdim a 1 = a.
Proof. by rewrite /bdim; case: eqP. Qed.

Lemma bdim_1l (b : nat) : bdim 1 b = b.
Proof. by []. Qed.

Lemma broadcastable_1r (a : nat) : broadcastable a 1.
Proof. by rewrite /broadcastable orbT. Qed.

Lemma broadcastable_1l (b : nat) : broadcastable 1 b.
Proof. by rewrite /broadcastable orbT. Qed.

(** X1: [proj(X, U)] returns exactly when [U] has as many rows as [X] and
    either as many columns as [X] or a single column (which numpy
    broadcasts); the result then has the shape of [X].  In every other case
    it raises [ValueError]. *)
Theorem proj_returns_iff (self : object F) X U :
  if (nrows U == nrows X) && ((ncols U == ncols X) || (ncols U == 1%N))
  then exists2 T, StiefelManifold_proj self X U = Ok T & shape T = shape X
  else StiefelManifold_proj self X U = Raise ValueError.
Proof.
case: X => n p x; case: U => m q u /=.
rewrite /StiefelManifold_proj /np_dot /sub /add /elementwise /=.
rewrite [m == n]eq_sym.
case: (eqVneq n m) => [<-|] //=.
case: (eqVneq q p) => [->|qp] /=.
  do !rewrite ?broadcastable_refl ?bdim_refl ?eqxx /=.
  by eexists; rewrite // /shape /= !bdim_refl.
case: (eqVneq q 1%N) => [q1|qn1] /=.
  rewrite q1.
  do !rewrite ?broadcastable_1r ?broadcastable_1l ?broadcastable_refl
              ?bdim_1r ?bdim_1l ?bdim_refl ?eqxx /=.
  by eexists; rewrite // /shape /= ?bdim_1r ?bdim_refl.
case: (eqVneq p 1%N) => [p1|pn1] /=.
  rewrite p1 broadcastable_1l broadcastable_1r /= bdim_1l.
  by rewrite eq_sym (negPf qn1).
by rewrite /broadcastable eq_sym (negPf qp) (negPf qn1) (negPf pn1).
Qed.

Section MoreAlgebra.
Variables (n p : nat) (X : 'M[F]_(n, p)).

Lemma tangent_mxD (U1 U2 : 'M[F]_(n, p)) :
  tangent_mx X (U1 + U2) = tangent_mx X U1 + tangent_mx X U2.
Proof.
rewrite /tangent_mx.
have -> : X^T *m (U1 + U2) - (U1 + U2)^T *m X =
          (X^T *m U1 - U1^T *m X) + (X^T *m U2 - U2^T *m X).
  by rewrite mulmxDr [(U1 + U2)^T]linearD /= mulmxDl opprD addrACA.
by rewrite scalerDr !mulmxDr addrACA.
Qed.

Lemma tangent_mxZ (c : F) (U : 'M[F]_(n, p)) :
  tangent_mx X (c *: U) = c *: tangent_mx X U.
Proof.
rewrite /tangent_mx.
have -> : X^T *m (c *: U) - (c *: U)^T *m X = c *: (X^T *m U - U^T *m X).
  by rewrite [(c *: U)^T]linearZ /= -scalemxAr -scalemxAl scalerBr.
by rewrite scalerA mulrC -scalerA -!scalemxAr scalerDr.
Qed.

Lemma tangent_mx_fix (U : 'M[F]_(n, p)) :
  X^T *m U + U^T *m X = 0 -> tangent_mx X U = U.
Proof.
move/eqP; rewrite addr_eq0 => /eqP sk.
rewrite /tangent_mx -[U^T *m X]opprK -sk opprK.
have -> : 2%:R^-1 *: (X^T *m U + X^T *m U) = X^T *m U.
  by rewrite -mulr2n -scaler_nat scalerA mulVf ?scale1r // pnatr_eq0.
by rewrite mulmxBl mul1mx mulmxA addrC subrK.
Qed.

Lemma tangent_mx_self : X^T *m X = 1%:M -> tangent_mx X X = 0.
Proof.
move=> oX; rewrite /tangent_mx subrr scaler0 mulmx0 add0r.
by rewrite mulmxBl mul1mx -mulmxA oX mulmx1 subrr.
Qed.

Lemma tangent_mx_residual (U : 'M[F]_(n, p)) :
  X^T *m X = 1%:M ->
  \tr ((tangent_mx X U)^T *m (U - tangent_mx X U)) = 0.
Proof.
move=> oX; set A := X^T *m U.
have BE : U^T *m X = A^T by rewrite /A trmx_mul trmxK.
have half (Z : 'M[F]_p) : 2%:R^-1 *: (Z + Z) = Z.
  by rewrite -mulr2n -scaler_nat scalerA mulVf ?scale1r // pnatr_eq0.
have resE : U - tangent_mx X U = X *m (2%:R^-1 *: (A + A^T)).
  apply/eqP; rewrite subr_eq /tangent_mx -/A; apply/eqP.
  rewrite addrA -mulmxDr -scalerDr BE addrACA subrr addr0 half.
  by rewrite mulmxBl mul1mx mulmxA addrC subrK.
have TX : (tangent_mx X U)^T *m X = 2%:R^-1 *: (A^T - A).
  rewrite -[X in _ *m X]trmxK -trmx_mul (tangent_mx_gram U oX) BE -/A.
  by rewrite linearZ /= linearB /= trmxK.
rewrite resE mulmxA TX -scalemxAl -scalemxAr !linearZ /=.
apply/eqP; rewrite !mulf_eq0 !invr_eq0 !pnatr_eq0 /=; apply/eqP.
rewrite mulmxBl !mulmxDr !linearD /= !linearN /=.
rewrite [\tr (A^T *m A)]mxtrace_mulC -trmx_mul mxtrace_tr.
by rewrite -opprD [X in X - _]addrC subrr.
Qed.

End MoreAlgebra.

(** X2: [proj] is additive in its second argument: for [U1] and [U2] of the
    shape of [X], [proj(X, U1 + U2)] and [proj(X, U1) + proj(X, U2)] both
    return, and return the same array.  [X] need not be on the manifold. *)
Theorem proj_additive (self : object F) X U1 U2 :
  shape U1 = shape X -> shape U2 = shape X ->
  exists2 T,
    (U <- add U1 U2;; StiefelManifold_proj self X U) = Ok T &
  exists2 T',
    (T1 <- StiefelManifold_proj self X U1;;
     T2 <- StiefelManifold_proj self X U2;; add T1 T2) = Ok T' &
  same_array T T'.
Proof.
move=> sU1 sU2.
have [|addU sU] := @elementwise_same_shape _ +%R U1 U2; first by rewrite sU2.
have [T1 -> [sT1 eT1]] := proj_ok self sU1.
have [T2 -> [sT2 eT2]] := proj_ok self sU2.
rewrite /add addU /=; rewrite sU1 in sU.
have [T -> [sT eT]] := proj_ok self sU; exists T => //.
have [|-> sT'] := @elementwise_same_shape _ +%R T1 T2; first by rewrite sT2.
exists (broadcast +%R T1 T2) => //; apply/same_array_as_mx.
rewrite sT' sT sT1; split=> //; case: sT => -> ->.
rewrite eT !as_mx_add ?sT1 ?sT2 ?sU1 ?sU2 // eT1 eT2.
exact: tangent_mxD.
Qed.

(** X3: [proj] commutes with scaling: for [U] of the shape of [X],
    [proj(X, c * U)] returns the array [c * proj(X, U)]. *)
Theorem proj_homogeneous (self : object F) X U (c : F) :
  shape U = shape X ->
  exists2 T, StiefelManifold_proj self X (scale c U) = Ok T &
  exists2 T', StiefelManifold_proj self X U = Ok T' &
  same_array T (scale c T').
Proof.
move=> sU; have [T' -> [sT' eT']] := proj_ok self sU.
have [|T -> [sT eT]] := @proj_ok F self X (scale c U); first by [].
exists T => //; exists T' => //; apply/same_array_as_mx.
rewrite sT /shape /= -[(nrows T', ncols T')]/(shape T') sT'; split=> //.
case: sT => -> ->.
by rewrite eT !as_mx_scale eT' tangent_mxZ.
Qed.

(** X4: a direction [U] of the shape of [X] with [X^T U + U^T X = 0] is
    returned unchanged by [proj(X, U)], whether or not [X] has orthonormal
    columns. *)
Theorem proj_fixes_tangent (self : object F) X U :
  shape U = shape X ->
  (let Xm := as_mx (nrows X) (ncols X) X in
   let Um := as_mx (nrows X) (ncols X) U in
   Xm^T *m Um + Um^T *m Xm = 0) ->
  exists2 T, StiefelManifold_proj self X U = Ok T & same_array T U.
Proof.
move=> sU /= skew; have [T -> [sT eT]] := proj_ok self sU.
exists T => //; apply/same_array_as_mx; rewrite sT sU; split=> //.
by case: sT => -> ->; rewrite eT tangent_mx_fix.
Qed.

(** X5: at a point [X] with orthonormal columns, [proj(X, X)] returns the
    zero array of the shape of [X]. *)
Theorem proj_of_point_is_zero (self : object F) X :
  orthonormal_columns X ->
  exists2 T, StiefelManifold_proj self X X = Ok T &
    shape T = shape X /\
    forall i j, (i < nrows X)%N -> (j < ncols X)%N -> item T i j = 0.
Proof.
move=> oX; have [//|T -> [sT eT]] := @proj_ok F self X X.
exists T => //; split=> // i j lti ltj.
move/matrixP/(_ (Ordinal lti) (Ordinal ltj)): eT.
by rewrite tangent_mx_self // !mxE.
Qed.

(** X6: at a point [X] with orthonormal columns, what [proj(X, U)] removes
    from [U] is orthogonal to what it keeps: the sum over all entries of
    [T * (U - T)] is zero for [T = proj(X, U)]. *)
Theorem proj_residual_orthogonal (self : object F) X U :
  shape U = shape X -> orthonormal_columns X ->
  exists2 T, StiefelManifold_proj self X U = Ok T &
    \sum_(j < ncols X) \sum_(i < nrows X)
       item T i j * (item U i j - item T i j) = 0.
Proof.
move=> sU oX; have [T -> [sT eT]] := proj_ok self sU.
exists T => //; have tr0 := tangent_mx_residual (as_mx _ _ U) oX.
rewrite -eT in tr0; rewrite -[RHS]tr0 /mxtrace.
apply: eq_bigr => j _; rewrite mxE.
by apply: eq_bigr => i _; rewrite !mxE.
Qed.

End MoreProj.

Section MoreRetraction.
Variable F : realFieldType.
Variable np_linalg_qr : ndarray F -> result (ndarray F * ndarray F).
Implicit Types X U Q R Z : ndarray F.

Lemma bidx_lt (d i : nat) : (i < d)%N -> bidx d i = i.
Proof. by move=> ltid; rewrite (bidx_ord (Ordinal ltid)). Qed.

Lemma orthonormal_columnsE Z (n p : nat) :
  shape Z = (n, p) ->
  orthonormal_columns Z <-> (as_mx n p Z)^T *m as_mx n p Z = 1%:M.
Proof. by case: Z => r c z [/= -> ->]. Qed.

Lemma sign_correction_sq (r : F) :
  let s := if r == 0 then 1 else sign r in s * s = 1.
Proof.
rewrite /sign /=; case: (ltrgt0P r) => _; rewrite ?mulr1 ?mulrNN ?mulr1 //.
Qed.

Lemma sign_of_unit (r : F) : r * r = 1 -> (if r == 0 then 1 else sign r) = r.
Proof.
move=> /eqP; rewrite -expr2 sqrf_eq1 => /orP[] /eqP ->.
  by rewrite oner_eq0 /sign ltr10 oner_eq0.
by rewrite oppr_eq0 oner_eq0 /sign oppr_lt0 ltr01.
Qed.

(** X7: on a square point, once [np.linalg.qr] has returned factors of the
    shape of [X], [retraction] returns an array of that shape whose
    off-diagonal entries are all zero and whose diagonal entries are those
    of [Q] times the corrected signs: the elementwise product keeps the
    diagonal of [Q] only. *)
Theorem retraction_square_keeps_diagonal (self : object F) X U (t : F) Q R :
  shape U = shape X -> nrows X = ncols X ->
  np_linalg_qr (broadcast +%R X (scale t U)) = Ok (Q, R) ->
  shape Q = shape X -> shape R = shape X ->
  exists2 Z, StiefelManifold_retraction np_linalg_qr self X U t = Ok Z &
    shape Z = shape X /\
    forall i j, (i < nrows X)%N -> (j < ncols X)%N ->
      item Z i j =
        if i == j
        then item Q i i * (if item R i i == 0 then 1 else sign (item R i i))
        else 0.
Proof.
move=> sU sq qrY [rQ cQ] [rR cR].
rewrite /StiefelManifold_retraction /add.
have [-> _] := @elementwise_same_shape _ +%R X (scale t U) sU.
rewrite /= qrY /mul /elementwise /= rQ cQ rR cR -sq minnn !broadcastable_refl /=.
eexists; first by []; rewrite /shape /= rQ cQ rR cR -sq minnn !bdim_refl.
split=> // i j lti ltj; rewrite !bidx_lt //.
case: eqP => [->|_]; last by rewrite mulr0.
by rewrite sign_of_shifted_sign.
Qed.

(** X8: on a one-column point, once [np.linalg.qr] has returned a factor
    [Q] of the shape of [X] with orthonormal columns and a 1 by 1 factor
    [R], [retraction] returns an array of the shape of [X] with orthonormal
    columns, for every direction and step size. *)
Theorem retraction_sphere_on_manifold (self : object F) X U (t : F) Q R :
  shape U = shape X -> ncols X = 1%N ->
  np_linalg_qr (broadcast +%R X (scale t U)) = Ok (Q, R) ->
  shape Q = shape X -> shape R = (1%N, 1%N) -> orthonormal_columns Q ->
  exists2 Z, StiefelManifold_retraction np_linalg_qr self X U t = Ok Z &
    shape Z = shape X /\ orthonormal_columns Z.
Proof.
move=> sU p1 qrY sQ sR oQ; case: (sQ) (sR) => rQ cQ [rR cR].
rewrite /StiefelManifold_retraction /add.
have [-> _] := @elementwise_same_shape _ +%R X (scale t U) sU.
rewrite /= qrY /mul /elementwise /= rQ cQ rR cR p1.
rewrite broadcastable_1r broadcastable_refl /=.
eexists; first by [].
have sZ : shape (broadcast *%R Q (np_diag1 (sign_correction R))) = shape X.
  by rewrite /shape /= rQ cQ rR cR p1 /= bdim_1r.
split=> //; apply/(orthonormal_columnsE sZ).
set s := if item R 0 0 == 0 then 1 else sign (item R 0 0).
have -> : as_mx (nrows X) (ncols X)
                (broadcast *%R Q (np_diag1 (sign_correction R))) =
          s *: as_mx (nrows X) (ncols X) Q.
  apply/matrixP => i j; rewrite !mxE /= rQ cQ rR cR /= bidx_ord.
  have -> : (j : nat) = 0%N by case: j => j /=; rewrite p1 ltnS leqn0 => /eqP.
  by rewrite p1 minnn /bidx /= sign_of_shifted_sign mulrC.
rewrite [(_ *: _)^T]linearZ /= -scalemxAl -scalemxAr scalerA.
rewrite (sign_correction_sq (item R 0 0)) scale1r.
by apply/(orthonormal_columnsE sQ).
Qed.

(** X9: on a one-column point [X] with orthonormal columns, when
    [np.linalg.qr] returns a reduced factorisation [Q R] of [X + 0.0 * U]
    with [Q] orthonormal, [retraction(X, U, 0.0)] returns [X]. *)
Theorem retraction_sphere_zero_step (self : object F) X U Q R :
  shape U = shape X -> ncols X = 1%N -> orthonormal_columns X ->
  np_linalg_qr (broadcast +%R X (scale 0 U)) = Ok (Q, R) ->
  shape Q = shape X -> shape R = (1%N, 1%N) -> orthonormal_columns Q ->
  as_mx (nrows X) 1 Q *m as_mx 1 1 R =
    as_mx (nrows X) 1 (broadcast +%R X (scale 0 U)) ->
  exists2 Z, StiefelManifold_retraction np_linalg_qr self X U 0 = Ok Z &
    same_array Z X.
Proof.
move=> sU p1 oX qrY sQ sR oQ QR; case: (sQ) (sR) => rQ cQ [rR cR].
have sX : shape X = (nrows X, 1%N) by rewrite /shape p1.
move/(orthonormal_columnsE sX): oX => oX.
have {}oQ : (as_mx (nrows X) 1 Q)^T *m as_mx (nrows X) 1 Q = 1%:M.
  by apply/(@orthonormal_columnsE Q) => //; rewrite sQ.
set r := item R 0 0.
have XE : as_mx (nrows X) 1 X = r *: as_mx (nrows X) 1 Q.
  have -> : as_mx (nrows X) 1 X =
            as_mx (nrows X) 1 (broadcast +%R X (scale 0 U)).
    have sS : shape (scale 0 U) = (nrows X, 1%N) by rewrite -sX -sU.
    by rewrite (as_mx_add sX sS) as_mx_scale scale0r addr0.
  rewrite -QR [as_mx 1 1 R]mx11_scalar mul_mx_scalar; congr (_ *: _).
  by rewrite mxE.
have r2 : r * r = 1.
  move: oX; rewrite XE [(_ *: _)^T]linearZ /= -scalemxAl -scalemxAr scalerA oQ.
  by move/matrixP/(_ ord0 ord0); rewrite !mxE /= mulr1n mulr1.
rewrite /StiefelManifold_retraction /add.
have [-> _] := @elementwise_same_shape _ +%R X (scale 0 U) sU.
rewrite /= qrY /mul /elementwise /= rQ cQ rR cR p1.
rewrite broadcastable_1r broadcastable_refl /=.
eexists; first by [].
apply/same_array_as_mx; rewrite /shape /= rQ cQ rR cR p1 /= bdim_1r.
split=> //; rewrite minnn /= XE -(sign_of_unit r2).
apply/matrixP => i j; rewrite !mxE /= rQ cQ rR cR p1 /= bidx_ord.
by rewrite ord1 minnn /bidx /= sign_of_shifted_sign mulrC.
Qed.

End MoreRetraction.

Section MoreManifold.
Variable F : realFieldType.
Variable np_sqrt : F -> F.
Variable npr_randn : value F -> result (ndarray F).
Implicit Types X : ndarray F.

(** X10: on an array whose shape is not [(n, p)] the membership test of
    [StiefelManifold(n, p)] returns [False] and raises nothing. *)
Theorem point_on_manifold_wrong_shape (n p : int) X :
  (Posz (nrows X) != n) || (Posz (ncols X) != p) ->
  call_point_on_manifold (StiefelManifold_new np_sqrt n p) X = Ok false.
Proof.
rewrite -negb_and => /negPf wrong.
by rewrite /call_point_on_manifold /= point_on_manifold_spec wrong.
Qed.

(** X11: [random_vec] returns no array on an instance of any of the three
    classes, whatever the sampler does: on the base class the sample is
    passed to [proj], which raises; on a Stiefel instance [proj] is called
    with one argument instead of two; on the placeholder [dim] is missing. *)
Theorem random_vec_never_returns (n p : int) (x : ndarray F) :
  [/\ call_random_vec npr_randn (Manifold_new F) <> Ok x,
      call_random_vec npr_randn (StiefelManifold_new np_sqrt n p) <> Ok x &
      call_random_vec npr_randn (GrassmannManifold_new F) <> Ok x].
Proof.
split=> //; rewrite /call_random_vec /Manifold_random_vec /=.
  by case: (npr_randn _).
by case: (npr_randn _).
Qed.

(** X12: for [0 <= p <= n] the [dim] stored by the constructor is a float
    that is not negative. *)
Theorem StiefelManifold_dim_nonneg (n p : int) :
  0 <= p <= n ->
  exists2 d, getattr (StiefelManifold_new np_sqrt n p) "dim" = Ok (VFloat d) &
    0 <= d.
Proof.
case/andP=> p0 pn; eexists; first by [].
rewrite subr_ge0 ler_pdivrMl ?ltr0n // -[2%:R]/(2%:~R) -intrM ler_int.
case: (eqVneq p 0) => [->|pn0]; first by rewrite !mul0r !mulr0.
have p1 : 1 <= p by rewrite -gtz0_ge1 lt_neqAle eq_sym pn0.
have -> : 2 * (n * p) = p * (n + n).
  by rewrite mulrA mulrC -[2]/(1 + 1) mulrDl !mul1r.
by rewrite ler_wpM2l // lerD // (le_trans p1).
Qed.

End MoreManifold.

Section MoreOptimizer.
Variable F : realFieldType.
Variable line_42_suite : locals F -> result (locals F).
Variable line_43_test :
  value F -> value F -> ndarray F -> value F -> result bool.
Variable obj_grad : ndarray F -> result (ndarray F).
Variable max_iter : int.

End MoreOptimizer.

(** * Further concrete instances *)

Lemma tangent_direction_is_tangent (F : realFieldType) :
  let Xm := as_mx 4 2 (identity_padded_4x2 F) in
  let Um := as_mx 4 2 (tangent_direction_4x2 F) in
  Xm^T *m Um + Um^T *m Xm = 0.
Proof.
apply/matrixP => i j; rewrite !mxE !big_ord_recl !big_ord0 !mxE /=.
case: i => [[|[|i]]] // ?; case: j => [[|[|j]]] // ?;
  by rewrite /= ?mulr0 ?mul0r ?mulr1 ?mul1r ?addr0 ?add0r ?subrr ?addNr.
Qed.

Lemma north_pole_orthonormal (F : realFieldType) :
  orthonormal_columns (north_pole_3x1 F).
Proof.
apply/matrixP => i j; rewrite !mxE !big_ord_recl big_ord0 !mxE /=.
by rewrite !ord1 /= ?mulr0 ?mulr1 ?addr0.
Qed.

Lemma proj_additive_witness :
  exists2 T,
    (U <- add (direction_4x2 rat) (tangent_direction_4x2 rat);;
     StiefelManifold_proj stiefel_4_2 (identity_padded_4x2 rat) U) = Ok T &
  exists2 T',
    (T1 <- StiefelManifold_proj stiefel_4_2 (identity_padded_4x2 rat)
                                (direction_4x2 rat);;
     T2 <- StiefelManifold_proj stiefel_4_2 (identity_padded_4x2 rat)
                                (tangent_direction_4x2 rat);;
     add T1 T2) = Ok T' &
  same_array T T'.
Proof.
by apply: (@proj_additive rat stiefel_4_2 (identity_padded_4x2 rat)
             (direction_4x2 rat) (tangent_direction_4x2 rat)).
Defined.

Lemma proj_homogeneous_witness :
  exists2 T,
    StiefelManifold_proj stiefel_4_2 (identity_padded_4x2 rat)
                         (scale 3%:R (direction_4x2 rat)) = Ok T &
  exists2 T',
    StiefelManifold_proj stiefel_4_2 (identity_padded_4x2 rat)
                         (direction_4x2 rat) = Ok T' &
  same_array T (scale 3%:R T').
Proof.
by apply: (@proj_homogeneous rat stiefel_4_2 (identity_padded_4x2 rat)
             (direction_4x2 rat) 3%:R).
Defined.

Lemma proj_fixes_tangent_witness :
  exists2 T,
    StiefelManifold_proj stiefel_4_2 (identity_padded_4x2 rat)
                         (tangent_direction_4x2 rat) = Ok T &
  same_array T (tangent_direction_4x2 rat).
Proof.
apply: (@proj_fixes_tangent rat stiefel_4_2 (identity_padded_4x2 rat)
          (tangent_direction_4x2 rat)); first by [].
exact: tangent_direction_is_tangent.
Defined.

Lemma proj_of_point_is_zero_witness :
  exists2 T,
    StiefelManifold_proj stiefel_4_2 (identity_padded_4x2 rat)
                         (identity_padded_4x2 rat) = Ok T &
    shape T = (4%N, 2%N) /\
    forall i j, (i < 4)%N -> (j < 2)%N -> item T i j = 0.
Proof.
apply: (@proj_of_point_is_zero rat stiefel_4_2 (identity_padded_4x2 rat)).
exact: identity_padded_orthonormal.
Defined.

Lemma proj_residual_orthogonal_witness :
  exists2 T,
    StiefelManifold_proj stiefel_4_2 (identity_padded_4x2 rat)
                         (direction_4x2 rat) = Ok T &
    \sum_(j < 2) \sum_(i < 4)
       item T i j * (item (direction_4x2 rat) i j - item T i j) = 0.
Proof.
apply: (@proj_residual_orthogonal rat stiefel_4_2 (identity_padded_4x2 rat)
          (direction_4x2 rat)); first by [].
exact: identity_padded_orthonormal.
Defined.

Lemma retraction_square_witness :
  exists2 Z,
    StiefelManifold_retraction qr_swap stiefel_2_2 (swap_2x2 rat)
                               (eye rat 2) 0 = Ok Z &
    shape Z = (2%N, 2%N) /\
    forall i j, (i < 2)%N -> (j < 2)%N ->
      item Z i j =
        if i == j
        then item (swap_2x2 rat) i i *
             (if item (eye rat 2) i i == 0 then 1
              else sign (item (eye rat 2) i i))
        else 0.
Proof.
by apply: (@retraction_square_keeps_diagonal rat qr_swap stiefel_2_2
             (swap_2x2 rat) (eye rat 2) 0 (swap_2x2 rat) (eye rat 2)).
Defined.

Lemma retraction_sphere_on_manifold_witness :
  exists2 Z,
    StiefelManifold_retraction qr_first_axis stiefel_3_1 (north_pole_3x1 rat)
                               (north_pole_3x1 rat) 1 = Ok Z &
    shape Z = (3%N, 1%N) /\ orthonormal_columns Z.
Proof.
apply: (@retraction_sphere_on_manifold rat qr_first_axis stiefel_3_1
          (north_pole_3x1 rat) (north_pole_3x1 rat) 1 (north_pole_3x1 rat)
          (NdArray 1 1 (fun _ _ => item (broadcast +%R (north_pole_3x1 rat)
                                   (scale 1 (north_pole_3x1 rat))) 0 0)));
  try by [].
exact: north_pole_orthonormal.
Defined.

Lemma retraction_sphere_zero_step_witness :
  exists2 Z,
    StiefelManifold_retraction qr_first_axis stiefel_3_1 (north_pole_3x1 rat)
                               (east_3x1 rat) 0 = Ok Z &
    same_array Z (north_pole_3x1 rat).
Proof.
apply: (@retraction_sphere_zero_step rat qr_first_axis stiefel_3_1
          (north_pole_3x1 rat) (east_3x1 rat) (north_pole_3x1 rat)
          (NdArray 1 1 (fun _ _ => item (broadcast +%R (north_pole_3x1 rat)
                                   (scale 0 (east_3x1 rat))) 0 0)));
  try by []; try exact: north_pole_orthonormal.
apply/matrixP => i j; rewrite !mxE big_ord_recl big_ord0 !mxE /= addr0.
by case: i => [[|[|[|i]]]] //= _; rewrite ?mul1r ?mul0r ?mulr0 ?mulr1 ?addr0.
Defined.

Lemma point_on_manifold_wrong_shape_witness :
  call_point_on_manifold stiefel_4_2 (eye rat 3) = Ok false.
Proof.
by apply: (@point_on_manifold_wrong_shape rat heron_sqrt 4 2 (eye rat 3)).
Defined.

Lemma StiefelManifold_dim_nonneg_witness :
  exists2 d, getattr (StiefelManifold_new heron_sqrt 5 2) "dim" =
             Ok (VFloat d) & 0 <= d.
Proof. by apply: (@StiefelManifold_dim_nonneg rat heron_sqrt 5 2). Defined.
